(** * Floating Sync Launcher (sync_app/public/js/sync_global.js)

    A shallow embedding of the page script: the jQuery ready handler, the
    two action flows [run_sync_up] / [run_sync_down], the construction of
    the floating control and the four click handlers it binds.

    The script is event driven.  Its state is the document (element tree,
    handlers bound to elements and to the document), the console, and what
    the consumed framework interfaces hold between events: the open
    confirmation prompts, the remote calls in flight and the notices shown.
    Function expressions of the source are first-order data here (one
    constructor per function expression) and are run by an interpreter. *)

From Stdlib Require Import List String Bool Arith Lia.
Import ListNotations.
Open Scope string_scope.
Open Scope list_scope.

(** ** JavaScript values *)

Module Js.

(** The values a response field or a session field can hold (numbers
    restricted to the naturals and NaN). *)
Inductive Val : Type :=
| Undefined
| Null
| Boolean (b : bool)
| Number (n : nat)
| NaN
| Str (s : string)
| Object.

(** ToBoolean: what [!v] negates. *)
Definition truthy (v : Val) : bool :=
  match v with
  | Undefined | Null | NaN => false
  | Boolean b => b
  | Number n => negb (Nat.eqb n 0)
  | Str s => negb (String.eqb s "")
  | Object => true
  end.

(** [v === s] for a string literal [s]: no coercion. *)
Definition strict_eq_str (v : Val) (s : string) : bool :=
  match v with
  | Str t => String.eqb t s
  | _ => false
  end.

End Js.

(** ** The document *)

(** The function expressions bound with [.on('click', ...)]:
    line 64 (button), line 70 (push link), line 76 (pull link),
    line 83 (document). *)
Inductive Handler : Type :=
| h_toggle
| h_sync_up
| h_sync_down
| h_doc_hide.

(** The element tree ([children], text nodes left out).  An element carries
    its tag, its [id] attribute, whether its inline [display] differs from
    [none], and the click handlers this script bound to it. *)
Inductive Node : Type :=
| Elem (tag : string) (id : option string) (shown : bool)
       (on_click : list Handler) (kids : Forest)
with Forest : Type :=
| FNil
| FCons (n : Node) (f : Forest).

Scheme Node_mut := Induction for Node Sort Prop
  with Forest_mut := Induction for Forest Sort Prop.
Combined Scheme Dom_mutind from Node_mut, Forest_mut.

(** An element reference: child indices from [<body>] downwards; the empty
    path is [<body>] itself. *)
Definition Path : Type := list nat.

Fixpoint flen (f : Forest) : nat :=
  match f with
  | FNil => 0
  | FCons _ f' => S (flen f')
  end.

Fixpoint fapp (f g : Forest) : Forest :=
  match f with
  | FNil => g
  | FCons n f' => FCons n (fapp f' g)
  end.

Fixpoint fnth (k : nat) (f : Forest) : option Node :=
  match f, k with
  | FNil, _ => None
  | FCons n _, 0 => Some n
  | FCons _ f', S k' => fnth k' f'
  end.

Definition id_is (i : string) (j : option string) : bool :=
  match j with
  | Some s => String.eqb s i
  | None => false
  end.

(** Number of elements whose id is [i]. *)
Fixpoint count_id_node (i : string) (n : Node) : nat :=
  match n with
  | Elem _ j _ _ ks => (if id_is i j then 1 else 0) + count_id i ks
  end
with count_id (i : string) (f : Forest) : nat :=
  match f with
  | FNil => 0
  | FCons n f' => count_id_node i n + count_id i f'
  end.

(** Number of click handlers bound inside a forest. *)
Fixpoint bound_node (n : Node) : nat :=
  match n with
  | Elem _ _ _ hs ks => List.length hs + bound ks
  end
with bound (f : Forest) : nat :=
  match f with
  | FNil => 0
  | FCons n f' => bound_node n + bound f'
  end.

(** [document.getElementById]: the first element in document order with
    the id, as a path; [k] is the index of the head of the forest. *)
Fixpoint find_node (i : string) (n : Node) : option Path :=
  match n with
  | Elem _ j _ _ ks => if id_is i j then Some [] else find_from 0 i ks
  end
with find_from (k : nat) (i : string) (f : Forest) : option Path :=
  match f with
  | FNil => None
  | FCons n f' =>
      match find_node i n with
      | Some p => Some (k :: p)
      | None => find_from (S k) i f'
      end
  end.

(** The selector [#anc tag]: every [tag] element below an element with id
    [anc], in document order. *)
Fixpoint desc_node (anc tag : string) (inside : bool) (n : Node) : list Path :=
  match n with
  | Elem t j _ _ ks =>
      (if inside && String.eqb t tag then [[]] else [])
        ++ desc_from 0 anc tag (inside || id_is anc j) ks
  end
with desc_from (k : nat) (anc tag : string) (inside : bool) (f : Forest)
  : list Path :=
  match f with
  | FNil => []
  | FCons n f' =>
      map (cons k) (desc_node anc tag inside n)
        ++ desc_from (S k) anc tag inside f'
  end.

(** Replace ([Some]) or delete ([None]) the [k]-th tree of a forest. *)
Fixpoint fupd (k : nat) (g : Node -> option Node) (f : Forest) : Forest :=
  match f, k with
  | FNil, _ => FNil
  | FCons n f', 0 =>
      match g n with
      | Some n' => FCons n' f'
      | None => f'
      end
  | FCons n f', S k' => FCons n (fupd k' g f')
  end.

Definition with_kids (g : Forest -> Forest) (n : Node) : option Node :=
  match n with
  | Elem t j s hs ks => Some (Elem t j s hs (g ks))
  end.

(** Apply [g] to the element at a path; a path that leads nowhere leaves
    the forest as it is. *)
Fixpoint update_at (p : Path) (g : Node -> option Node) (f : Forest) : Forest :=
  match p with
  | [] => f
  | [k] => fupd k g f
  | k :: p' => fupd k (with_kids (update_at p' g)) f
  end.

Definition detach (n : Node) : option Node := None.

Definition bind_click (h : Handler) (n : Node) : option Node :=
  match n with
  | Elem t j s hs ks => Some (Elem t j s (hs ++ [h]) ks)
  end.

Definition set_shown (g : bool -> bool) (n : Node) : option Node :=
  match n with
  | Elem t j s hs ks => Some (Elem t j (g s) hs ks)
  end.

(** *** jQuery selections and methods *)

Module Jq.

(** A jQuery object: the selected elements in document order. *)
Definition Sel : Type := list Path.

(** [$('#i')] selects at most one element. *)
Definition by_id (i : string) (f : Forest) : Sel :=
  match find_from 0 i f with
  | Some p => [p]
  | None => []
  end.

(** [$('#anc tag')]. *)
Definition by_desc (anc tag : string) (f : Forest) : Sel :=
  desc_from 0 anc tag false f.

(** A method applied to each selected element, the last one first, so that
    a deletion leaves the paths still to come valid. *)
Definition each (g : Node -> option Node) (s : Sel) (f : Forest) : Forest :=
  fold_right (fun p acc => update_at p g acc) f s.

Definition remove : Sel -> Forest -> Forest := each detach.
Definition on_click (h : Handler) : Sel -> Forest -> Forest := each (bind_click h).
Definition toggle : Sel -> Forest -> Forest := each (set_shown negb).
Definition hide : Sel -> Forest -> Forest := each (set_shown (fun _ => false)).

(** [$('body').append(n)]. *)
Definition append (n : Node) (f : Forest) : Forest := fapp f (FCons n FNil).

End Jq.

(** ** The page state *)

Inductive Level : Type := Log | Warn.

(** The arrow functions given to [frappe.confirm] (lines 19 and 30). *)
Inductive ConfirmCb : Type :=
| cb_push
| cb_pull.

(** The arrow functions given as [callback] (lines 24 and 35). *)
Inductive CallCb : Type :=
| cb_pushed
| cb_pulled.

(** The object literal given to [frappe.call]. *)
Record CallOpts : Type := mkCallOpts {
  method : string;
  freeze : bool;
  freeze_message : string;
  callback : CallCb
}.

(** The response object [r]; a field the server did not send reads as
    [undefined]. *)
Record Response : Type := mkResponse {
  exc : Js.Val;
  message : Js.Val
}.

Record World : Type := mkWorld {
  body : Forest;                          (* children of <body> *)
  doc_click : list Handler;               (* click handlers on document *)
  console : list (Level * string);
  dialogs : list (string * ConfirmCb);    (* open confirmation prompts *)
  inflight : list CallOpts;               (* remote calls awaiting a response *)
  notices : list Js.Val                   (* arguments of msgprint so far *)
}.

Definition set_body (f : Forest) (w : World) : World :=
  mkWorld f (doc_click w) (console w) (dialogs w) (inflight w) (notices w).

Definition on_body (g : Forest -> Forest) (w : World) : World :=
  set_body (g (body w)) w.

Definition document_on_click (h : Handler) (w : World) : World :=
  mkWorld (body w) (doc_click w ++ [h]) (console w) (dialogs w) (inflight w)
          (notices w).

Definition console_put (l : Level) (s : string) (w : World) : World :=
  mkWorld (body w) (doc_click w) (console w ++ [(l, s)]) (dialogs w)
          (inflight w) (notices w).

Definition set_dialogs (d : list (string * ConfirmCb)) (w : World) : World :=
  mkWorld (body w) (doc_click w) (console w) d (inflight w) (notices w).

Definition set_inflight (c : list CallOpts) (w : World) : World :=
  mkWorld (body w) (doc_click w) (console w) (dialogs w) c (notices w).

(** ** The consumed framework interfaces *)

Module Frappe.

(** The global [frappe] as the ready handler reads it. *)
Record Session : Type := mkSession { user : Js.Val }.

Record Runtime : Type := mkRuntime {
  call_defined : bool;            (* typeof frappe.call !== 'undefined' *)
  session : option Session        (* frappe.session, None when undefined *)
}.

(** Modelled from the spec: the confirmation dialog interface of the
    framework, which is not part of this script.  Given a prompt and an
    on-confirm callback it displays a modal and returns; the callback is
    invoked only if the user accepts. *)
Definition confirm (prompt : string) (cb : ConfirmCb) (w : World) : World :=
  set_dialogs (dialogs w ++ [(prompt, cb)]) w.

(** Modelled from the spec: the remote call interface of the framework.
    It dispatches an asynchronous request and returns; the callback is
    invoked with the response when the exchange completes. *)
Definition call (o : CallOpts) (w : World) : World :=
  set_inflight (inflight w ++ [o]) w.

(** Modelled from the spec: the notice display interface of the framework.
    Given a message it shows it to the user modally. *)
Definition msgprint (m : Js.Val) (w : World) : World :=
  mkWorld (body w) (doc_click w) (console w) (dialogs w) (inflight w)
          (notices w ++ [m]).

End Frappe.

(** ** The script *)

(** Line 24 and line 35: [(r) => { if(!r.exc) frappe.msgprint(r.message); }]. *)
Definition run_call_cb (cb : CallCb) (r : Response) (w : World) : World :=
  match cb with
  | cb_pushed => if negb (Js.truthy (exc r)) then Frappe.msgprint (message r) w else w
  | cb_pulled => if negb (Js.truthy (exc r)) then Frappe.msgprint (message r) w else w
  end.

(** Lines 19-26 and 30-37: the arrow functions that issue the call. *)
Definition run_confirm_cb (cb : ConfirmCb) (w : World) : World :=
  match cb with
  | cb_push =>
      Frappe.call
        (mkCallOpts "sync_app.sync.api.sync_up_to_master" true "Pushing..."
                    cb_pushed) w
  | cb_pull =>
      Frappe.call
        (mkCallOpts "sync_app.sync.api.sync_down_from_master" true "Pulling..."
                    cb_pulled) w
  end.

Definition run_sync_up (w : World) : World :=
  Frappe.confirm "Push changes to Master?" cb_push w.

Definition run_sync_down (w : World) : World :=
  Frappe.confirm "Pull changes from Master?" cb_pull w.

(** What a handler did to its event object. *)
Record Flags : Type := mkFlags {
  propagation_stopped : bool;
  default_prevented : bool
}.

(** Lines 64-67, 70-74, 76-80 and 83-85. *)
Definition run_handler (h : Handler) (w : World) : World * Flags :=
  match h with
  | h_toggle =>
      (on_body (fun f => Jq.toggle (Jq.by_id "sync-popup-menu" f) f) w,
       mkFlags true false)
  | h_sync_up =>
      (run_sync_up
         (on_body (fun f => Jq.hide (Jq.by_id "sync-popup-menu" f) f) w),
       mkFlags false true)
  | h_sync_down =>
      (run_sync_down
         (on_body (fun f => Jq.hide (Jq.by_id "sync-popup-menu" f) f) w),
       mkFlags false true)
  | h_doc_hide =>
      (on_body (fun f => Jq.hide (Jq.by_id "sync-popup-menu" f) f) w,
       mkFlags false false)
  end.

(** Lines 45-59: the element tree of the template literal (classes and
    styles other than [display] left out). *)
Definition icon : Node := Elem "i" None true [] FNil.

Definition btn_html : Node :=
  Elem "div" (Some "sync-floating-btn") true []
    (FCons (Elem "button" None true [] (FCons icon FNil))
    (FCons (Elem "div" (Some "sync-popup-menu") false []
       (FCons (Elem "a" (Some "float-sync-up") true []
                 (FCons icon FNil))
       (FCons (Elem "a" (Some "float-sync-down") true []
                 (FCons icon FNil))
        FNil)))
     FNil)).

(** Lines 41-88. *)
Definition create_floating_button (w : World) : World :=
  let w := on_body (fun f => Jq.remove (Jq.by_id "sync-floating-btn" f) f) w in
  let w := on_body (Jq.append btn_html) w in
  let w := on_body (fun f =>
             Jq.on_click h_toggle (Jq.by_desc "sync-floating-btn" "button" f) f) w in
  let w := on_body (fun f =>
             Jq.on_click h_sync_up (Jq.by_id "float-sync-up" f) f) w in
  let w := on_body (fun f =>
             Jq.on_click h_sync_down (Jq.by_id "float-sync-down" f) f) w in
  let w := document_on_click h_doc_hide w in
  console_put Log "Sync App: Floating button created" w.

(** How a run of the ready handler ends. *)
Inductive Outcome : Type :=
| Returned (w : World)
| Thrown (error : string) (w : World).

(** Lines 5-92: the function given to [$(...)]. *)
Definition ready (frappe : option Frappe.Runtime) (w : World) : Outcome :=
  match frappe with
  | None => Returned (console_put Warn "Sync App: Frappe not loaded yet." w)
  | Some rt =>
      if negb (Frappe.call_defined rt)
      then Returned (console_put Warn "Sync App: Frappe not loaded yet." w)
      else
        match Frappe.session rt with
        | None => Thrown "TypeError" w
        | Some s =>
            if Js.strict_eq_str (Frappe.user s) "Guest" then Returned w
            else
              Returned
                (create_floating_button
                   (console_put Log "Sync App: Initializing..." w))
        end
  end.

(** ** Events *)

(** Where a handler that ran was bound. *)
Inductive Site : Type :=
| AtElement (p : Path)
| AtDocument.

(** The handlers on the way from the target up to [<body>], target first;
    [pre] is the path of the forest's parent.  [None] when the path names
    no element. *)
Fixpoint chain (pre p : Path) (f : Forest) : option (list (Site * list Handler)) :=
  match p with
  | [] => Some []
  | k :: p' =>
      match fnth k f with
      | None => None
      | Some (Elem _ _ _ hs ks) =>
          match chain (pre ++ [k]) p' ks with
          | None => None
          | Some c => Some (c ++ [(AtElement (pre ++ [k]), hs)])
          end
      end
  end.

(** All handlers bound at one place run; [stopPropagation] in any of them
    keeps the event from the places further up. *)
Fixpoint run_level (hs : list Handler) (w : World) : World * bool :=
  match hs with
  | [] => (w, false)
  | h :: hs' =>
      let (w1, fl) := run_handler h w in
      let (w2, st) := run_level hs' w1 in
      (w2, propagation_stopped fl || st)
  end.

(** Bubbling; the second component lists the handlers that ran. *)
Fixpoint propagate (lv : list (Site * list Handler)) (w : World)
  : World * list (Site * Handler) :=
  match lv with
  | [] => (w, [])
  | (s, hs) :: rest =>
      let (w1, st) := run_level hs w in
      if st then (w1, map (pair s) hs)
      else
        let (w2, ran) := propagate rest w1 in
        (w2, map (pair s) hs ++ ran)
  end.

(** A click whose target is the element at [t] (the body for the empty
    path): the event bubbles to the document. *)
Definition click (t : Path) (w : World) : World * list (Site * Handler) :=
  match chain [] t (body w) with
  | None => (w, [])
  | Some c => propagate (c ++ [(AtDocument, doc_click w)]) w
  end.

(** The [i]-th element of a list and the list without it. *)
Fixpoint take_nth {A : Type} (i : nat) (l : list A) : option (A * list A) :=
  match l, i with
  | [], _ => None
  | x :: l', 0 => Some (x, l')
  | x :: l', S i' =>
      match take_nth i' l' with
      | Some (y, r) => Some (y, x :: r)
      | None => None
      end
  end.

(** Modelled from the spec: the user answers the [i]-th open confirmation
    prompt of the framework; the prompt closes and the on-confirm callback
    runs only on acceptance. *)
Definition answer (i : nat) (accept : bool) (w : World) : World :=
  match take_nth i (dialogs w) with
  | None => w
  | Some ((_, cb), rest) =>
      if accept then run_confirm_cb cb (set_dialogs rest w)
      else set_dialogs rest w
  end.

(** Modelled from the spec: the [i]-th remote call in flight completes with
    response [r]; the framework invokes its callback. *)
Definition respond (i : nat) (r : Response) (w : World) : World :=
  match take_nth i (inflight w) with
  | None => w
  | Some (o, rest) => run_call_cb (callback o) r (set_inflight rest w)
  end.

Inductive Event : Type :=
| EvReady
| EvClick (t : Path)
| EvAnswer (i : nat) (accept : bool)
| EvResponse (i : nat) (r : Response).

Definition world_of (o : Outcome) : World :=
  match o with
  | Returned w => w
  | Thrown _ w => w
  end.

Definition step (frappe : option Frappe.Runtime) (e : Event) (w : World) : Outcome :=
  match e with
  | EvReady => ready frappe w
  | EvClick t => Returned (fst (click t w))
  | EvAnswer i a => Returned (answer i a w)
  | EvResponse i r => Returned (respond i r w)
  end.

(** The page after a sequence of events; an uncaught exception ends the
    handler that raised it, not the page. *)
Definition run (frappe : option Frappe.Runtime) (es : list Event) (w : World) : World :=
  fold_left (fun w e => world_of (step frappe e w)) es w.

(** [n] runs of the ready handler in succession; the first exception ends
    the sequence. *)
Fixpoint ready_times (n : nat) (frappe : option Frappe.Runtime) (w : World) : Outcome :=
  match n with
  | 0 => Returned w
  | S n' =>
      match ready_times n' frappe w with
      | Returned w' => ready frappe w'
      | Thrown e w' => Thrown e w'
      end
  end.

(** The session in which initialization goes through: the runtime and its
    remote call are there and the user is not the guest. *)
Definition signed_in (frappe : option Frappe.Runtime) : bool :=
  match frappe with
  | Some rt =>
      Frappe.call_defined rt
      && match Frappe.session rt with
         | Some s => negb (Js.strict_eq_str (Frappe.user s) "Guest")
         | None => false
         end
  | None => false
  end.

(** A page as loaded and a logged-in administrator, for the examples. *)
Definition empty_world (f : Forest) : World := mkWorld f [] [] [] [] [].

Definition admin : option Frappe.Runtime :=
  Some (Frappe.mkRuntime true (Some (Frappe.mkSession (Js.Str "Administrator")))).

Definition sample_page : Forest :=
  FCons (Elem "nav" (Some "navbar") true []
           (FCons (Elem "a" None true [] FNil) FNil))
  (FCons (Elem "main" None true [] FNil) FNil).

(** The sample page after initialization, and after a click on the button. *)
Definition sample_closed : World :=
  run admin [EvReady] (empty_world sample_page).

Definition sample_open : World :=
  run admin [EvReady; EvClick [2; 0]] (empty_world sample_page).

(** A document in which two elements already carry the id of the control. *)
Definition twin_page : Forest :=
  FCons (Elem "div" (Some "sync-floating-btn") true [] FNil)
  (FCons (Elem "div" (Some "sync-floating-btn") true [] FNil) FNil).

(** ** Vocabulary of the statements *)

(** An element update that changes neither ids nor the shape below. *)
Definition keeps (i : string) (u : Node -> option Node) : Prop :=
  forall n, exists n', u n = Some n' /\ count_id_node i n' = count_id_node i n.

(** The control once its handlers are bound, with the popup shown or not. *)
Definition live (open : bool) : Node :=
  Elem "div" (Some "sync-floating-btn") true []
    (FCons (Elem "button" None true [h_toggle] (FCons icon FNil))
    (FCons (Elem "div" (Some "sync-popup-menu") open []
       (FCons (Elem "a" (Some "float-sync-up") true [h_sync_up]
                 (FCons icon FNil))
       (FCons (Elem "a" (Some "float-sync-down") true [h_sync_down]
                 (FCons icon FNil))
        FNil)))
     FNil)).

(** The body of a page [p] with the control as its last child. *)
Definition mounted (p : Forest) (open : bool) : Forest :=
  fapp p (FCons (live open) FNil).

(** A page of the host application that this script has not touched and
    that does not use the ids of the control. *)
Definition pristine (p : Forest) : Prop :=
  count_id "sync-floating-btn" p = 0
  /\ count_id "sync-popup-menu" p = 0
  /\ count_id "float-sync-up" p = 0
  /\ count_id "float-sync-down" p = 0
  /\ bound p = 0.

(** The page state once initialization has run on a pristine page. *)
Definition Mounted (p : Forest) (open : bool) (w : World) : Prop :=
  body w = mounted p open
  /\ exists n, doc_click w = repeat h_doc_hide (S n).

(** The shape that every event preserves. *)
Definition is_mounted (p : Forest) (w : World) : Prop := exists b, Mounted p b w.

(** A click on the main button: on the button or on the icon in it. *)
Definition on_button (p : Forest) (t : Path) : Prop :=
  t = [flen p; 0] \/ t = [flen p; 0; 0].

(** A sequence of clicks, with the handlers that ran. *)
Fixpoint clicks (ts : list Path) (w : World) : World * list (Site * Handler) :=
  match ts with
  | [] => (w, [])
  | t :: ts' =>
      let (w1, r1) := click t w in
      let (w2, r2) := clicks ts' w1 in
      (w2, r1 ++ r2)
  end.

(** The click target is an element of the page [p] (not of the control),
    or the body for the empty path. *)
Definition outside (p : Forest) (t : Path) : bool :=
  match chain [] t p with
  | Some _ => true
  | None => false
  end.

(** A click on the "Sync Up (Push)" link or on the icon in it. *)
Definition on_push_link (p : Forest) (t : Path) : Prop :=
  t = [flen p; 1; 0] \/ t = [flen p; 1; 0; 0].

(** A click on the "Sync Down (Pull)" link or on the icon in it. *)
Definition on_pull_link (p : Forest) (t : Path) : Prop :=
  t = [flen p; 1; 1] \/ t = [flen p; 1; 1; 0].

(** A click on the root of the control or on the popup panel, beside the
    button and the links. *)
Definition on_panel (p : Forest) (t : Path) : Prop :=
  t = [flen p] \/ t = [flen p; 1].

(** The object literals of lines 20-25 and 31-36. *)
Definition push_opts : CallOpts :=
  mkCallOpts "sync_app.sync.api.sync_up_to_master" true "Pushing..." cb_pushed.

Definition pull_opts : CallOpts :=
  mkCallOpts "sync_app.sync.api.sync_down_from_master" true "Pulling..." cb_pulled.

(** * Properties *)

(** ** Forests *)

Section ForestFacts.

Variable i : string.

Lemma count_id_fapp (f g : Forest) :
  count_id i (fapp f g) = count_id i f + count_id i g.
Proof.
  induction f as [|n f IH]; simpl; [reflexivity|].
  rewrite IH. lia.
Qed.

Lemma flen_fapp (f g : Forest) : flen (fapp f g) = flen f + flen g.
Proof. induction f; simpl; congruence. Qed.

Lemma fnth_fapp_r (f g : Forest) (j : nat) :
  fnth (flen f + j) (fapp f g) = fnth j g.
Proof. induction f; simpl; auto. Qed.

Lemma fnth_fapp_l (f g : Forest) (j : nat) (n : Node) :
  fnth j f = Some n -> fnth j (fapp f g) = Some n.
Proof.
  revert j. induction f as [|m f IH]; intros [|j]; simpl; try discriminate; auto.
Qed.

Lemma fupd_fapp (f g : Forest) (j : nat) (u : Node -> option Node) :
  fupd (flen f + j) u (fapp f g) = fapp f (fupd j u g).
Proof. induction f; simpl; congruence. Qed.

Lemma update_at_fapp (f g : Forest) (j : nat) (q : Path) (u : Node -> option Node) :
  update_at ((flen f + j) :: q) u (fapp f g) = fapp f (update_at (j :: q) u g).
Proof. destruct q; simpl; apply fupd_fapp. Qed.

Lemma keeps_bind_click (h : Handler) : keeps i (bind_click h).
Proof. intros [t j s hs ks]. eexists. split; reflexivity. Qed.

Lemma keeps_set_shown (g : bool -> bool) : keeps i (set_shown g).
Proof. intros [t j s hs ks]. eexists. split; reflexivity. Qed.

Lemma count_id_fupd (u : Node -> option Node) :
  keeps i u -> forall f k, count_id i (fupd k u f) = count_id i f.
Proof.
  intros Hu. induction f as [|n f IH]; intros [|k]; simpl; auto.
  destruct (Hu n) as [n' [-> Hn]]. simpl. lia.
Qed.

Lemma count_id_update_at (u : Node -> option Node) :
  keeps i u -> forall p f, count_id i (update_at p u f) = count_id i f.
Proof.
  intros Hu. induction p as [|k p IH]; intros f; [reflexivity|].
  destruct p as [|k' p].
  - simpl. apply count_id_fupd, Hu.
  - change (update_at (k :: k' :: p) u f)
      with (fupd k (with_kids (update_at (k' :: p) u)) f).
    apply count_id_fupd.
    intros [t j s hs ks]. eexists. split; [reflexivity|].
    change ((if id_is i j then 1 else 0) + count_id i (update_at (k' :: p) u ks)
            = (if id_is i j then 1 else 0) + count_id i ks).
    rewrite IH. reflexivity.
Qed.

Lemma count_id_each (u : Node -> option Node) :
  keeps i u -> forall s f, count_id i (Jq.each u s f) = count_id i f.
Proof.
  intros Hu. induction s as [|p s IH]; intros f; simpl; [reflexivity|].
  rewrite count_id_update_at by exact Hu. apply IH.
Qed.

(** [getElementById] misses exactly when no element carries the id. *)
Lemma find_none_count :
  (forall n, find_node i n = None -> count_id_node i n = 0)
  /\ (forall f k, find_from k i f = None -> count_id i f = 0).
Proof.
  apply Dom_mutind.
  - intros t j s hs ks IH. simpl. destruct (id_is i j); [discriminate|].
    intros H. rewrite (IH 0 H). reflexivity.
  - reflexivity.
  - intros n IHn f IHf k. simpl.
    destruct (find_node i n) eqn:E; [discriminate|].
    intros H. rewrite (IHn eq_refl), (IHf _ H). reflexivity.
Qed.

Lemma count_none_find :
  (forall n, count_id_node i n = 0 -> find_node i n = None)
  /\ (forall f, count_id i f = 0 -> forall k, find_from k i f = None).
Proof.
  apply Dom_mutind.
  - intros t j s hs ks IH. simpl. destruct (id_is i j); [discriminate|].
    intros H. apply IH. exact H.
  - reflexivity.
  - intros n IHn f IHf H k. simpl in *.
    rewrite IHn by lia. apply IHf. lia.
Qed.

Lemma find_from_fapp (f g : Forest) :
  forall k, find_from k i (fapp f g) =
            match find_from k i f with
            | Some p => Some p
            | None => find_from (k + flen f) i g
            end.
Proof.
  induction f as [|n f IH]; intros k; simpl.
  - rewrite Nat.add_0_r. reflexivity.
  - destruct (find_node i n); [reflexivity|].
    rewrite IH. rewrite Nat.add_succ_r. reflexivity.
Qed.

(** Detaching the element that [getElementById] finds takes at least one
    carrier of the id out of the forest. *)
Lemma detach_found :
  (forall n q, find_node i n = Some q ->
     match n with
     | Elem t j s hs ks =>
         (q = [] /\ id_is i j = true)
         \/ (q <> [] /\ id_is i j = false
             /\ count_id i (update_at q detach ks) < count_id i ks)
     end)
  /\ (forall f k p, find_from k i f = Some p ->
        exists j q, p = (k + j) :: q
          /\ count_id i (update_at (j :: q) detach f) < count_id i f).
Proof.
  apply Dom_mutind.
  - intros t j s hs ks IH q. simpl. destruct (id_is i j).
    + intros H. injection H as <-. left. auto.
    + intros H. right. destruct (IH 0 q H) as [j' [q' [-> Hlt]]].
      split; [discriminate|]. split; [reflexivity|]. exact Hlt.
  - discriminate.
  - intros n IHn f IHf k p. simpl.
    destruct (find_node i n) as [q|] eqn:E.
    + intros H. injection H as <-. exists 0, q.
      split; [rewrite Nat.add_0_r; reflexivity|].
      destruct n as [t j s hs ks].
      destruct (IHn q eq_refl) as [[-> Hid]|[Hq [Hid Hlt]]].
      * unfold detach. simpl. rewrite Hid. lia.
      * destruct q as [|k' q]; [congruence|].
        change ((if id_is i j then 1 else 0)
                  + count_id i (update_at (k' :: q) detach ks) + count_id i f
                < (if id_is i j then 1 else 0) + count_id i ks + count_id i f).
        lia.
    + intros H. destruct (IHf _ _ H) as [j [q [-> Hlt]]].
      exists (S j), q. split; [f_equal; lia|].
      assert (Hn : count_id_node i n = 0) by (apply find_none_count; exact E).
      destruct q as [|k' q]; simpl in *; lia.
Qed.

Lemma count_id_remove (f : Forest) :
  count_id i f <= 1 -> count_id i (Jq.remove (Jq.by_id i f) f) = 0.
Proof.
  intros H. unfold Jq.remove, Jq.by_id.
  destruct (find_from 0 i f) as [p|] eqn:E; simpl.
  - destruct (proj2 detach_found f 0 p E) as [j [q [-> Hlt]]].
    simpl in *. lia.
  - apply (proj2 find_none_count f 0 E).
Qed.

End ForestFacts.

(** ** The control in a page *)

Section Control.

Variable p : Forest.

Lemma each_one (u : Node -> option Node) (q : list nat) (f : Forest) :
  Jq.each u [q] f = update_at q u f.
Proof. reflexivity. Qed.

Lemma fapp_nil_r (f : Forest) : fapp f FNil = f.
Proof. induction f; simpl; congruence. Qed.

Lemma fnth_tail (n : Node) (g : Forest) :
  fnth (flen p) (fapp p (FCons n g)) = Some n.
Proof.
  rewrite <- (Nat.add_0_r (flen p)). rewrite fnth_fapp_r. reflexivity.
Qed.

Lemma update_at_tail (g : Forest) (q : Path) (u : Node -> option Node) :
  update_at (flen p :: q) u (fapp p g) = fapp p (update_at (0 :: q) u g).
Proof.
  rewrite <- (Nat.add_0_r (flen p)). apply update_at_fapp.
Qed.

Lemma desc_none (a t : string) :
  (forall n, count_id_node a n = 0 -> desc_node a t false n = [])
  /\ (forall f, count_id a f = 0 -> forall k, desc_from k a t false f = []).
Proof.
  apply Dom_mutind.
  - intros t' j s hs ks IH. simpl. destruct (id_is a j); [discriminate|].
    intros H. apply IH. exact H.
  - reflexivity.
  - intros n IHn f IHf H k. simpl in *.
    rewrite IHn by lia. rewrite IHf by lia. reflexivity.
Qed.

Lemma desc_from_fapp (a t : string) (b : bool) (f g : Forest) :
  forall k, desc_from k a t b (fapp f g)
            = desc_from k a t b f ++ desc_from (k + flen f) a t b g.
Proof.
  induction f as [|n f IH]; intros k; simpl.
  - rewrite Nat.add_0_r. reflexivity.
  - rewrite IH, Nat.add_succ_r, app_assoc. reflexivity.
Qed.

Lemma by_id_tail (i : string) (g : Forest) :
  count_id i p = 0 ->
  Jq.by_id i (fapp p g)
  = match find_from (flen p) i g with Some q => [q] | None => [] end.
Proof.
  intros H. unfold Jq.by_id. rewrite find_from_fapp.
  rewrite (proj2 (count_none_find i) p H 0). reflexivity.
Qed.

Lemma by_desc_tail (a t : string) (g : Forest) :
  count_id a p = 0 ->
  Jq.by_desc a t (fapp p g) = desc_from (flen p) a t false g.
Proof.
  intros H. unfold Jq.by_desc. rewrite desc_from_fapp.
  rewrite (proj2 (desc_none a t) p H 0). reflexivity.
Qed.

Hypothesis Hp : pristine p.

Lemma toggle_mounted (b : bool) :
  Jq.toggle (Jq.by_id "sync-popup-menu" (mounted p b)) (mounted p b)
  = mounted p (negb b).
Proof.
  unfold mounted. rewrite by_id_tail by apply Hp. simpl (find_from _ _ _). cbv iota.
  unfold Jq.toggle. rewrite each_one, update_at_tail. reflexivity.
Qed.

Lemma hide_mounted (b : bool) :
  Jq.hide (Jq.by_id "sync-popup-menu" (mounted p b)) (mounted p b)
  = mounted p false.
Proof.
  unfold mounted. rewrite by_id_tail by apply Hp. simpl (find_from _ _ _). cbv iota.
  unfold Jq.hide. rewrite each_one, update_at_tail. reflexivity.
Qed.

Lemma remove_pristine :
  Jq.remove (Jq.by_id "sync-floating-btn" p) p = p.
Proof.
  unfold Jq.by_id. rewrite (proj2 (count_none_find _) p); [reflexivity|apply Hp].
Qed.

Lemma remove_mounted (b : bool) :
  Jq.remove (Jq.by_id "sync-floating-btn" (mounted p b)) (mounted p b) = p.
Proof.
  unfold mounted. rewrite by_id_tail by apply Hp. simpl (find_from _ _ _). cbv iota.
  unfold Jq.remove. rewrite each_one, update_at_tail. simpl. apply fapp_nil_r.
Qed.

(** Binding the handlers of lines 64-80 on a page with the fresh control. *)
Lemma bind_fresh :
  let f1 := Jq.append btn_html p in
  let f2 := Jq.on_click h_toggle (Jq.by_desc "sync-floating-btn" "button" f1) f1 in
  let f3 := Jq.on_click h_sync_up (Jq.by_id "float-sync-up" f2) f2 in
  Jq.on_click h_sync_down (Jq.by_id "float-sync-down" f3) f3 = mounted p false.
Proof.
  destruct Hp as [H1 [H2 [H3 [H4 H5]]]].
  unfold Jq.append, Jq.on_click. cbv zeta.
  rewrite by_desc_tail by exact H1. simpl (desc_from _ _ _ _ _).
  rewrite each_one, update_at_tail. simpl update_at.
  rewrite by_id_tail by exact H3. simpl (find_from _ _ _). cbv iota.
  rewrite each_one, update_at_tail. simpl update_at.
  rewrite by_id_tail by exact H4. simpl (find_from _ _ _). cbv iota.
  rewrite each_one, update_at_tail. reflexivity.
Qed.

End Control.

(** ** The page with the control mounted *)

Lemma world_eta (w : World) :
  mkWorld (body w) (doc_click w) (console w) (dialogs w) (inflight w)
          (notices w) = w.
Proof. destruct w; reflexivity. Qed.

Lemma fnth_bound (f : Forest) :
  bound f = 0 ->
  forall k t j s hs ks, fnth k f = Some (Elem t j s hs ks) ->
                        hs = [] /\ bound ks = 0.
Proof.
  induction f as [|n f IH]; intros Hb k t j s hs ks;
    [destruct k; discriminate|].
  simpl in Hb. destruct k as [|k]; simpl.
  - intros H. injection H as ->. simpl in Hb.
    split; [apply length_zero_iff_nil|]; lia.
  - apply IH. lia.
Qed.

Lemma chain_unbound (t : Path) :
  forall f pre c, bound f = 0 -> chain pre t f = Some c ->
                  Forall (fun l => snd l = []) c.
Proof.
  induction t as [|k t IH]; intros f pre c Hb; simpl.
  - intros H. injection H as <-. constructor.
  - destruct (fnth k f) as [[tg j s hs ks]|] eqn:E; [|discriminate].
    destruct (fnth_bound f Hb _ _ _ _ _ _ E) as [-> Hks].
    destruct (chain (pre ++ [k]) t ks) as [c'|] eqn:E'; [|discriminate].
    intros H. injection H as <-.
    apply Forall_app. split; [apply (IH _ _ _ Hks E')|].
    constructor; [reflexivity|constructor].
Qed.

Lemma chain_fapp_l (t : Path) (f g : Forest) (pre : Path) (c : list (Site * list Handler)) :
  chain pre t f = Some c -> chain pre t (fapp f g) = Some c.
Proof.
  destruct t as [|k t]; simpl; [auto|].
  destruct (fnth k f) as [n|] eqn:E; [|discriminate].
  rewrite (fnth_fapp_l f g k n E). auto.
Qed.

Lemma propagate_unbound (c rest : list (Site * list Handler)) (w : World) :
  Forall (fun l => snd l = []) c ->
  propagate (c ++ rest) w = propagate rest w.
Proof.
  induction 1 as [|[s hs] c Hhs _ IH]; [reflexivity|].
  simpl in Hhs. subst hs. simpl. rewrite IH.
  destruct (propagate rest w). reflexivity.
Qed.

Lemma ready_signed_in (frappe : option Frappe.Runtime) (w : World) :
  signed_in frappe = true ->
  ready frappe w
  = Returned (create_floating_button
                (console_put Log "Sync App: Initializing..." w)).
Proof.
  destruct frappe as [[cd [s|]]|]; simpl; try discriminate;
    destruct cd; simpl; try discriminate.
  destruct (Js.strict_eq_str (Frappe.user s) "Guest"); [discriminate|reflexivity].
Qed.

Lemma take_nth_app {A : Type} (pre post : list A) (x : A) :
  take_nth (List.length pre) (pre ++ x :: post) = Some (x, pre ++ post).
Proof.
  induction pre as [|y pre IH]; simpl; [reflexivity|].
  rewrite IH. reflexivity.
Qed.

Lemma count_id_create (w : World) :
  count_id "sync-floating-btn" (body (create_floating_button w))
  = count_id "sync-floating-btn"
      (Jq.remove (Jq.by_id "sync-floating-btn" (body w)) (body w)) + 1.
Proof.
  unfold create_floating_button, on_body, set_body, document_on_click,
    console_put, Jq.on_click.
  cbn [body doc_click console dialogs inflight notices].
  rewrite !count_id_each by apply keeps_bind_click.
  unfold Jq.append. rewrite count_id_fapp. reflexivity.
Qed.

Lemma doc_click_create (w : World) :
  doc_click (create_floating_button w) = doc_click w ++ [h_doc_hide].
Proof. reflexivity. Qed.

Section Page.

Variable p : Forest.
Hypothesis Hp : pristine p.

Lemma create_on (w : World) :
  body w = p \/ (exists b, body w = mounted p b) ->
  create_floating_button w
  = mkWorld (mounted p false) (doc_click w ++ [h_doc_hide])
            (console w ++ [(Log, "Sync App: Floating button created")])
            (dialogs w) (inflight w) (notices w).
Proof.
  intros H. unfold create_floating_button, on_body, set_body,
    document_on_click, console_put.
  cbn [body doc_click console dialogs inflight notices].
  f_equal.
  assert (Hr : Jq.remove (Jq.by_id "sync-floating-btn" (body w)) (body w) = p).
  { destruct H as [->|[b ->]];
      [apply remove_pristine|apply remove_mounted]; exact Hp. }
  rewrite Hr. exact (bind_fresh p Hp).
Qed.

Lemma run_handler_mounted (b : bool) (w : World) (h : Handler) :
  body w = mounted p b ->
  run_handler h w
  = match h with
    | h_toggle => (set_body (mounted p (negb b)) w, mkFlags true false)
    | h_sync_up => (run_sync_up (set_body (mounted p false) w), mkFlags false true)
    | h_sync_down => (run_sync_down (set_body (mounted p false) w), mkFlags false true)
    | h_doc_hide => (set_body (mounted p false) w, mkFlags false false)
    end.
Proof.
  intros H. destruct h; unfold run_handler, on_body; rewrite H;
    rewrite ?(toggle_mounted p Hp), ?(hide_mounted p Hp); reflexivity.
Qed.

Lemma run_handler_inv (h : Handler) (w : World) :
  is_mounted p w -> is_mounted p (fst (run_handler h w)).
Proof.
  intros [b [Hb Hd]]. rewrite (run_handler_mounted b w h Hb).
  destruct h; simpl; eexists; (split; [reflexivity|exact Hd]).
Qed.

Lemma run_level_inv (hs : list Handler) :
  forall w, is_mounted p w -> is_mounted p (fst (run_level hs w)).
Proof.
  induction hs as [|h hs IH]; intros w Hw; [exact Hw|].
  simpl. pose proof (run_handler_inv h w Hw) as H1.
  destruct (run_handler h w) as [w1 fl]. simpl in H1.
  pose proof (IH w1 H1) as H2.
  destruct (run_level hs w1) as [w2 st]. exact H2.
Qed.

Lemma propagate_inv (lv : list (Site * list Handler)) :
  forall w, is_mounted p w -> is_mounted p (fst (propagate lv w)).
Proof.
  induction lv as [|[s hs] lv IH]; intros w Hw; [exact Hw|].
  simpl. pose proof (run_level_inv hs w Hw) as H1.
  destruct (run_level hs w) as [w1 st]. simpl in H1.
  destruct st; [exact H1|].
  pose proof (IH w1 H1) as H2.
  destruct (propagate lv w1) as [w2 ran]. exact H2.
Qed.

Lemma click_inv (t : Path) (w : World) :
  is_mounted p w -> is_mounted p (fst (click t w)).
Proof.
  intros Hw. unfold click.
  destruct (chain [] t (body w)); [apply propagate_inv|]; exact Hw.
Qed.

Lemma answer_inv (i : nat) (a : bool) (w : World) :
  is_mounted p w -> is_mounted p (answer i a w).
Proof.
  intros Hw. unfold answer.
  destruct (take_nth i (dialogs w)) as [[[q cb] rest]|]; [|exact Hw].
  destruct a; [destruct cb|]; exact Hw.
Qed.

Lemma respond_inv (i : nat) (r : Response) (w : World) :
  is_mounted p w -> is_mounted p (respond i r w).
Proof.
  intros Hw. unfold respond.
  destruct (take_nth i (inflight w)) as [[o rest]|]; [|exact Hw].
  unfold run_call_cb.
  destruct (callback o); destruct (negb (Js.truthy (exc r))); exact Hw.
Qed.

Lemma ready_inv (frappe : option Frappe.Runtime) (w : World) :
  is_mounted p w -> is_mounted p (world_of (ready frappe w)).
Proof.
  intros Hw. unfold ready.
  destruct frappe as [[cd [s|]]|]; try destruct cd; simpl; try exact Hw.
  destruct (Js.strict_eq_str (Frappe.user s) "Guest"); simpl; [exact Hw|].
  destruct Hw as [b [Hb [n Hd]]].
  rewrite create_on by (right; exists b; exact Hb).
  exists false. split; [reflexivity|].
  exists (S n). simpl. rewrite Hd. simpl. f_equal.
  rewrite <- repeat_cons. reflexivity.
Qed.

Lemma step_inv (frappe : option Frappe.Runtime) (e : Event) (w : World) :
  is_mounted p w -> is_mounted p (world_of (step frappe e w)).
Proof.
  intros Hw. destruct e; simpl.
  - apply ready_inv, Hw.
  - apply click_inv, Hw.
  - apply answer_inv, Hw.
  - apply respond_inv, Hw.
Qed.

Lemma run_inv (frappe : option Frappe.Runtime) (es : list Event) :
  forall w, is_mounted p w -> is_mounted p (run frappe es w).
Proof.
  induction es as [|e es IH]; intros w Hw; [exact Hw|].
  simpl. apply IH, step_inv, Hw.
Qed.

(** Initialization of a signed-in session mounts the control on a
    pristine page. *)
Lemma ready_mounts (frappe : option Frappe.Runtime) (w : World) :
  signed_in frappe = true -> body w = p -> doc_click w = [] ->
  exists w', ready frappe w = Returned w' /\ Mounted p false w'.
Proof.
  intros Hf Hb Hd. rewrite (ready_signed_in frappe w Hf).
  eexists. split; [reflexivity|].
  rewrite create_on by (left; exact Hb).
  split; [reflexivity|]. exists 0. simpl. rewrite Hd. reflexivity.
Qed.

(** Every state the page reaches after that initialization has the
    control mounted. *)
Lemma reachable_mounted (frappe : option Frappe.Runtime) (w : World)
      (es : list Event) :
  signed_in frappe = true -> body w = p -> doc_click w = [] ->
  is_mounted p (run frappe (EvReady :: es) w).
Proof.
  intros Hf Hb Hd. simpl.
  destruct (ready_mounts frappe w Hf Hb Hd) as [w' [-> Hm]].
  apply run_inv. exists false. exact Hm.
Qed.

Lemma chain_tail (pre t : Path) (n : Node) (g : Forest) :
  chain pre (flen p :: t) (fapp p (FCons n g))
  = match n with
    | Elem _ _ _ hs ks =>
        match chain (pre ++ [flen p]) t ks with
        | None => None
        | Some c => Some (c ++ [(AtElement (pre ++ [flen p]), hs)])
        end
    end.
Proof. simpl. rewrite fnth_tail. reflexivity. Qed.

Lemma click_button (b : bool) (w : World) (t : Path) :
  body w = mounted p b -> on_button p t ->
  click t w
  = (set_body (mounted p (negb b)) w, [(AtElement [flen p; 0], h_toggle)]).
Proof.
  intros Hb Ht. unfold click. rewrite Hb. unfold mounted.
  destruct Ht as [->| ->]; rewrite chain_tail; cbn -[run_handler];
    rewrite (run_handler_mounted b w h_toggle Hb); reflexivity.
Qed.

Lemma run_level_hide (n : nat) :
  forall w b, body w = mounted p b ->
    run_level (repeat h_doc_hide (S n)) w = (set_body (mounted p false) w, false).
Proof.
  induction n as [|n IH]; intros w b Hb.
  - cbn -[run_handler].
    rewrite (run_handler_mounted b w h_doc_hide Hb). reflexivity.
  - change (repeat h_doc_hide (S (S n)))
      with (h_doc_hide :: repeat h_doc_hide (S n)).
    cbn [run_level].
    rewrite (run_handler_mounted b w h_doc_hide Hb).
    rewrite (IH (set_body (mounted p false) w) false eq_refl). reflexivity.
Qed.

Lemma click_outside (b : bool) (w : World) (t : Path)
      (c : list (Site * list Handler)) :
  Mounted p b w -> chain [] t p = Some c ->
  click t w
  = (set_body (mounted p false) w, map (pair AtDocument) (doc_click w)).
Proof.
  intros [Hb [n Hd]] Hc. unfold click. rewrite Hb. unfold mounted.
  rewrite (chain_fapp_l _ _ _ _ _ Hc).
  rewrite propagate_unbound by (apply (chain_unbound t p [] c); [apply Hp|exact Hc]).
  cbn [propagate]. rewrite Hd. rewrite (run_level_hide n w b Hb).
  rewrite app_nil_r. reflexivity.
Qed.

End Page.

Lemma clicks_button (p : Forest) (ts : list Path) :
  pristine p -> Forall (on_button p) ts ->
  forall w b, body w = mounted p b ->
    clicks ts w
    = (set_body (mounted p (xorb b (Nat.odd (List.length ts)))) w,
       repeat (AtElement [flen p; 0], h_toggle) (List.length ts)).
Proof.
  intros Hp. induction 1 as [|t ts Ht _ IH]; intros w b Hb.
  - simpl. rewrite xorb_false_r, <- Hb. unfold set_body.
    rewrite world_eta. reflexivity.
  - cbn [clicks]. rewrite (click_button p Hp b w t Hb Ht).
    rewrite (IH (set_body (mounted p (negb b)) w) (negb b) eq_refl).
    cbn [List.length]. rewrite Nat.odd_succ, <- Nat.negb_odd.
    destruct b, (Nat.odd (List.length ts)); reflexivity.
Qed.

(** ** Scenarios *)

(** Spec section 8, property 5: after initialization, opening the popup,
    clicking "Sync Up", confirming and a successful response with message
    "OK", the one notice shown reads "OK"; the call is no longer in flight. *)
Example sync_up_ok :
  let w := run admin
             [EvReady; EvClick [2; 0]; EvClick [2; 1; 0]; EvAnswer 0 true;
              EvResponse 0 (mkResponse Js.Undefined (Js.Str "OK"))]
             (empty_world sample_page) in
  notices w = [Js.Str "OK"] /\ inflight w = [] /\ dialogs w = [].
Proof. vm_compute. auto. Qed.

(** The same run with a response flagged as an error shows no notice. *)
Example sync_up_failed :
  notices (run admin
             [EvReady; EvClick [2; 0]; EvClick [2; 1; 0]; EvAnswer 0 true;
              EvResponse 0 (mkResponse (Js.Str "Traceback") Js.Undefined)]
             (empty_world sample_page)) = [].
Proof. reflexivity. Qed.

(** A click on a link of the popup reaches the document as well: the link
    handler prevents the default action but lets the event bubble. *)
Example link_click_bubbles :
  snd (click [2; 1; 1]
         (run admin [EvReady; EvClick [2; 0]] (empty_world sample_page)))
  = [(AtElement [2; 1; 1], h_sync_down); (AtDocument, h_doc_hide)].
Proof. reflexivity. Qed.

(** Initialization throws when the runtime is there without a session. *)
Example missing_session_throws :
  ready (Some (Frappe.mkRuntime true None)) (empty_world sample_page)
  = Thrown "TypeError" (empty_world sample_page).
Proof. reflexivity. Qed.

(** The id selector takes the first carrier of the id only: of two
    elements that carried the id of the control before initialization, one
    is still there afterwards, next to the control. *)
Example twin_ids_survive :
  count_id "sync-floating-btn"
           (body (world_of (ready admin (empty_world twin_page)))) = 2.
Proof. reflexivity. Qed.

(** ** The action flows *)

(** C1: for each sync action the flow opens its confirmation prompt without
    issuing a call; when the user confirms, exactly one remote call is
    issued, to 'sync_app.sync.api.sync_up_to_master' for push and to
    'sync_app.sync.api.sync_down_from_master' for pull, with the freeze flag
    set and the caption 'Pushing...' or 'Pulling...'; nothing else changes.
    The same holds when the prompt is answered later, among other open
    prompts. *)
Theorem confirmed_sync_issues_one_call :
  forall w : World,
    (run_sync_up w
       = set_dialogs (dialogs w ++ [("Push changes to Master?", cb_push)]) w
     /\ answer (List.length (dialogs w)) true (run_sync_up w)
        = set_inflight
            (inflight w
               ++ [mkCallOpts "sync_app.sync.api.sync_up_to_master" true
                              "Pushing..." cb_pushed]) w)
    /\ (run_sync_down w
          = set_dialogs (dialogs w ++ [("Pull changes from Master?", cb_pull)]) w
        /\ answer (List.length (dialogs w)) true (run_sync_down w)
           = set_inflight
               (inflight w
                  ++ [mkCallOpts "sync_app.sync.api.sync_down_from_master" true
                                 "Pulling..." cb_pulled]) w)
    /\ (forall pre post q,
          answer (List.length pre) true
                 (set_dialogs (pre ++ (q, cb_push) :: post) w)
          = set_inflight
              (inflight w
                 ++ [mkCallOpts "sync_app.sync.api.sync_up_to_master" true
                                "Pushing..." cb_pushed])
              (set_dialogs (pre ++ post) w))
    /\ (forall pre post q,
          answer (List.length pre) true
                 (set_dialogs (pre ++ (q, cb_pull) :: post) w)
          = set_inflight
              (inflight w
                 ++ [mkCallOpts "sync_app.sync.api.sync_down_from_master" true
                                "Pulling..." cb_pulled])
              (set_dialogs (pre ++ post) w)).
Proof.
  intros [f dc co ds fl ns].
  assert (Hgen : forall cb pre post q,
             answer (List.length pre) true
                    (set_dialogs (pre ++ (q, cb) :: post)
                                 (mkWorld f dc co ds fl ns))
             = run_confirm_cb cb
                 (set_dialogs (pre ++ post) (mkWorld f dc co ds fl ns))).
  { intros cb pre post q. unfold answer, set_dialogs.
    cbn [dialogs]. rewrite take_nth_app. reflexivity. }
  repeat split.
  - unfold run_sync_up, Frappe.confirm. cbn [dialogs].
    change (set_dialogs (ds ++ [("Push changes to Master?", cb_push)])
                        (mkWorld f dc co ds fl ns))
      with (set_dialogs (ds ++ ("Push changes to Master?", cb_push) :: [])
                        (mkWorld f dc co ds fl ns)).
    rewrite Hgen, app_nil_r. reflexivity.
  - unfold run_sync_down, Frappe.confirm. cbn [dialogs].
    change (set_dialogs (ds ++ [("Pull changes from Master?", cb_pull)])
                        (mkWorld f dc co ds fl ns))
      with (set_dialogs (ds ++ ("Pull changes from Master?", cb_pull) :: [])
                        (mkWorld f dc co ds fl ns)).
    rewrite Hgen, app_nil_r. reflexivity.
  - intros pre post q. rewrite Hgen. reflexivity.
  - intros pre post q. rewrite Hgen. reflexivity.
Qed.

(** C2: when a sync call in flight completes, its callback (either one)
    shows the response's message as a notice if the response carries no
    error indicator ([exc] falsy) and shows nothing if it carries one; the
    call leaves the calls in flight and nothing else changes. *)
Theorem response_notice_iff_no_error :
  forall (f : Forest) dc co ds (pre post : list CallOpts) (o : CallOpts) ns
         (r : Response),
    respond (List.length pre) r (mkWorld f dc co ds (pre ++ o :: post) ns)
    = mkWorld f dc co ds (pre ++ post)
              (if Js.truthy (exc r) then ns else ns ++ [message r]).
Proof.
  intros. unfold respond. cbn [inflight]. rewrite take_nth_app.
  unfold run_call_cb, Frappe.msgprint, set_inflight.
  destruct (callback o), (Js.truthy (exc r)); reflexivity.
Qed.

(** C3: for either sync action, when the user declines the prompt the flow
    opened, no remote call is issued and the page state is exactly what it
    was before the action; declining any open prompt closes that prompt and
    leaves the calls in flight and everything else as they were. *)
Theorem declined_sync_changes_nothing :
  forall w : World,
    answer (List.length (dialogs w)) false (run_sync_up w) = w
    /\ answer (List.length (dialogs w)) false (run_sync_down w) = w
    /\ (forall pre post q cb,
          answer (List.length pre) false
                 (set_dialogs (pre ++ (q, cb) :: post) w)
          = set_dialogs (pre ++ post) w).
Proof.
  intros [f dc co ds fl ns].
  assert (Hgen : forall pre post q cb,
             answer (List.length pre) false
                    (set_dialogs (pre ++ (q, cb) :: post)
                                 (mkWorld f dc co ds fl ns))
             = set_dialogs (pre ++ post) (mkWorld f dc co ds fl ns)).
  { intros pre post q cb. unfold answer, set_dialogs.
    cbn [dialogs]. rewrite take_nth_app. reflexivity. }
  repeat split.
  - unfold run_sync_up, Frappe.confirm. cbn [dialogs].
    change (set_dialogs (ds ++ [("Push changes to Master?", cb_push)])
                        (mkWorld f dc co ds fl ns))
      with (set_dialogs (ds ++ ("Push changes to Master?", cb_push) :: [])
                        (mkWorld f dc co ds fl ns)).
    rewrite Hgen. unfold set_dialogs. rewrite app_nil_r. reflexivity.
  - unfold run_sync_down, Frappe.confirm. cbn [dialogs].
    change (set_dialogs (ds ++ [("Pull changes from Master?", cb_pull)])
                        (mkWorld f dc co ds fl ns))
      with (set_dialogs (ds ++ ("Pull changes from Master?", cb_pull) :: [])
                        (mkWorld f dc co ds fl ns)).
    rewrite Hgen. unfold set_dialogs. rewrite app_nil_r. reflexivity.
  - exact Hgen.
Qed.

(** C10: on a response with no error indicator whose message is absent
    (reads as [undefined]), the notice display is still invoked, with
    [undefined]: the callback does not test the message. *)
Theorem notice_shown_without_message :
  forall (w : World) (cb : CallCb) (e : Js.Val),
    Js.truthy e = false ->
    run_call_cb cb (mkResponse e Js.Undefined) w
    = Frappe.msgprint Js.Undefined w
    /\ notices (run_call_cb cb (mkResponse e Js.Undefined) w)
       = notices w ++ [Js.Undefined].
Proof.
  intros w cb e He. unfold run_call_cb. cbn [exc message].
  rewrite He. destruct cb; split; reflexivity.
Qed.

Lemma notice_shown_without_message_witness :
  Js.truthy Js.Null = false
  /\ (run_call_cb cb_pushed (mkResponse Js.Null Js.Undefined)
                  (empty_world sample_page)
      = Frappe.msgprint Js.Undefined (empty_world sample_page)
      /\ notices (run_call_cb cb_pushed (mkResponse Js.Null Js.Undefined)
                              (empty_world sample_page))
         = notices (empty_world sample_page) ++ [Js.Undefined]).
Proof.
  split; [reflexivity|].
  apply (notice_shown_without_message (empty_world sample_page) cb_pushed Js.Null).
  reflexivity.
Defined.

(** ** Initialization *)

(** C5: when the runtime passes the guard and the session user read at
    initialization is strictly equal to 'Guest', the ready handler returns
    normally (it does not throw) and leaves the page exactly as it was: no
    control is created, nothing is bound, nothing is logged. *)
Theorem guest_session_is_left_alone :
  forall (frappe : option Frappe.Runtime) (rt : Frappe.Runtime)
         (s : Frappe.Session) (w : World),
    frappe = Some rt ->
    Frappe.call_defined rt = true ->
    Frappe.session rt = Some s ->
    Frappe.user s = Js.Str "Guest" ->
    ready frappe w = Returned w
    /\ body (world_of (ready frappe w)) = body w
    /\ doc_click (world_of (ready frappe w)) = doc_click w.
Proof.
  intros frappe rt s w -> Hc Hs Hu.
  assert (H : ready (Some rt) w = Returned w).
  { unfold ready. rewrite Hc, Hs, Hu. reflexivity. }
  rewrite H. auto.
Qed.

Lemma guest_session_is_left_alone_witness :
  ready (Some (Frappe.mkRuntime true (Some (Frappe.mkSession (Js.Str "Guest")))))
        sample_closed
  = Returned sample_closed
  /\ body (world_of
             (ready (Some (Frappe.mkRuntime true
                             (Some (Frappe.mkSession (Js.Str "Guest")))))
                    sample_closed))
     = body sample_closed
  /\ doc_click (world_of
                  (ready (Some (Frappe.mkRuntime true
                                  (Some (Frappe.mkSession (Js.Str "Guest")))))
                         sample_closed))
     = doc_click sample_closed.
Proof.
  apply (guest_session_is_left_alone
           (Some (Frappe.mkRuntime true (Some (Frappe.mkSession (Js.Str "Guest")))))
           (Frappe.mkRuntime true (Some (Frappe.mkSession (Js.Str "Guest"))))
           (Frappe.mkSession (Js.Str "Guest")) sample_closed);
    reflexivity.
Defined.

(** C6: when [frappe] is undefined, or [frappe.call] is, the ready handler
    logs the warning and returns normally; the document (elements and
    bound handlers) and everything but the console stay as they were. *)
Theorem missing_runtime_only_warns :
  forall w : World,
    let warned :=
      Returned
        (mkWorld (body w) (doc_click w)
                 (console w ++ [(Warn, "Sync App: Frappe not loaded yet.")])
                 (dialogs w) (inflight w) (notices w)) in
    ready None w = warned
    /\ forall s, ready (Some (Frappe.mkRuntime false s)) w = warned.
Proof. intros w. split; reflexivity. Qed.

(** C4: in a signed-in session (runtime available, user not the guest) and
    a document with at most one element of id 'sync-floating-btn' (ids are
    unique in a document), every run of initialization returns normally and
    leaves exactly one element with that id, whether it ran once, twice in
    succession or any number of times: the previous instance is removed
    before the new one is appended. *)
Theorem initialization_keeps_one_control :
  forall (frappe : option Frappe.Runtime) (w : World) (n : nat),
    signed_in frappe = true ->
    count_id "sync-floating-btn" (body w) <= 1 ->
    exists w',
      ready_times (S n) frappe w = Returned w'
      /\ count_id "sync-floating-btn" (body w') = 1.
Proof.
  intros frappe w n Hf Hc.
  assert (Hone : forall v, count_id "sync-floating-btn" (body v) <= 1 ->
            exists v', ready frappe v = Returned v'
                       /\ count_id "sync-floating-btn" (body v') = 1).
  { intros v Hv. rewrite (ready_signed_in frappe v Hf).
    eexists. split; [reflexivity|].
    rewrite count_id_create. cbn [console_put body].
    rewrite count_id_remove by exact Hv. reflexivity. }
  induction n as [|n IH].
  - simpl. apply Hone, Hc.
  - destruct IH as [v [Hv Hcv]].
    change (ready_times (S (S n)) frappe w)
      with (match ready_times (S n) frappe w with
            | Returned w' => ready frappe w'
            | Thrown e w' => Thrown e w'
            end).
    rewrite Hv. apply Hone. lia.
Qed.

Lemma initialization_keeps_one_control_witness :
  signed_in admin = true
  /\ count_id "sync-floating-btn" (body (empty_world sample_page)) <= 1
  /\ exists w',
       ready_times 2 admin (empty_world sample_page) = Returned w'
       /\ count_id "sync-floating-btn" (body w') = 1.
Proof.
  split; [reflexivity|]. split; [simpl; lia|].
  apply (initialization_keeps_one_control admin (empty_world sample_page) 1).
  - reflexivity.
  - simpl. lia.
Defined.

(** C9: each run of initialization in a signed-in session binds one more
    click handler on the document; removing the previous control does not
    unbind the earlier ones, so [n] runs leave [n] dismiss handlers more on
    the document than before (exactly [n] on a freshly loaded page). *)
Theorem document_handlers_accumulate :
  forall (frappe : option Frappe.Runtime) (w : World) (n : nat),
    signed_in frappe = true ->
    exists w',
      ready_times n frappe w = Returned w'
      /\ doc_click w' = doc_click w ++ repeat h_doc_hide n.
Proof.
  intros frappe w n Hf. induction n as [|n [v [Hv Hd]]].
  - exists w. split; [reflexivity|]. simpl. rewrite app_nil_r. reflexivity.
  - cbn [ready_times]. rewrite Hv, (ready_signed_in frappe v Hf).
    eexists. split; [reflexivity|].
    rewrite doc_click_create. cbn [console_put doc_click]. rewrite Hd.
    rewrite <- app_assoc. f_equal.
    change [h_doc_hide] with (repeat h_doc_hide 1).
    rewrite <- repeat_app. f_equal. lia.
Qed.

Lemma document_handlers_accumulate_witness :
  signed_in admin = true
  /\ exists w',
       ready_times 3 admin (empty_world sample_page) = Returned w'
       /\ doc_click w'
          = doc_click (empty_world sample_page) ++ repeat h_doc_hide 3.
Proof.
  split; [reflexivity|].
  apply (document_handlers_accumulate admin (empty_world sample_page) 3).
  reflexivity.
Defined.

(** ** The popup *)

(** C7: on a page with the control mounted, after any sequence of clicks on
    the main button the popup's visibility is its initial visibility flipped
    once per click, and one more click on the button shows the popup if it
    was hidden and hides it if it was shown, changing nothing else; the only
    handler that runs on such a click is the button's own: the event does
    not reach the document and no dismiss handler runs. *)
Theorem button_click_toggles_popup :
  forall (p : Forest) (b : bool) (w : World) (ts : list Path) (t : Path),
    pristine p -> Mounted p b w ->
    Forall (on_button p) ts -> on_button p t ->
    let w' := fst (clicks ts w) in
    let b' := xorb b (Nat.odd (List.length ts)) in
    Mounted p b' w'
    /\ (forall h, ~ In (AtDocument, h) (snd (clicks ts w)))
    /\ click t w'
       = (set_body (mounted p (negb b')) w', [(AtElement [flen p; 0], h_toggle)]).
Proof.
  intros p b w ts t Hp [Hb Hd] Hts Ht w' b'. subst w' b'.
  rewrite (clicks_button p ts Hp Hts w b Hb). cbn [fst snd].
  split; [split; [reflexivity|exact Hd]|]. split.
  - intros h Hin. apply repeat_spec in Hin. discriminate.
  - apply (click_button p Hp); [reflexivity|exact Ht].
Qed.

Lemma button_click_toggles_popup_witness :
  pristine sample_page /\ Mounted sample_page false sample_closed
  /\ Forall (on_button sample_page) [[2; 0]; [2; 0; 0]; [2; 0]]
  /\ on_button sample_page [2; 0; 0]
  /\ Mounted sample_page true
       (fst (clicks [[2; 0]; [2; 0; 0]; [2; 0]] sample_closed))
  /\ (forall h, ~ In (AtDocument, h)
                  (snd (clicks [[2; 0]; [2; 0; 0]; [2; 0]] sample_closed)))
  /\ click [2; 0; 0] (fst (clicks [[2; 0]; [2; 0; 0]; [2; 0]] sample_closed))
     = (set_body (mounted sample_page false)
                 (fst (clicks [[2; 0]; [2; 0; 0]; [2; 0]] sample_closed)),
        [(AtElement [2; 0], h_toggle)]).
Proof.
  assert (Hp : pristine sample_page) by (repeat split; reflexivity).
  assert (Hw : Mounted sample_page false sample_closed)
    by (split; [reflexivity|exists 0; reflexivity]).
  assert (Hts : Forall (on_button sample_page) [[2; 0]; [2; 0; 0]; [2; 0]])
    by (constructor; [left; reflexivity|];
        constructor; [right; reflexivity|];
        constructor; [left; reflexivity|constructor]).
  assert (Ht : on_button sample_page [2; 0; 0]) by (right; reflexivity).
  split; [exact Hp|]. split; [exact Hw|]. split; [exact Hts|].
  split; [exact Ht|].
  exact (button_click_toggles_popup sample_page false sample_closed
           [[2; 0]; [2; 0; 0]; [2; 0]] [2; 0; 0] Hp Hw Hts Ht).
Defined.

(** C8: on a page with the control mounted and the popup open, a click on
    any element of the page outside the control (or on the body itself)
    reaches the document, whose dismiss handlers run and hide the popup;
    nothing else changes. *)
Theorem outside_click_closes_popup :
  forall (p : Forest) (w : World) (t : Path),
    pristine p -> Mounted p true w -> outside p t = true ->
    click t w
    = (set_body (mounted p false) w, map (pair AtDocument) (doc_click w)).
Proof.
  intros p w t Hp Hw Ht. unfold outside in Ht.
  destruct (chain [] t p) as [c|] eqn:E; [|discriminate].
  exact (click_outside p Hp true w t c Hw E).
Qed.

Lemma outside_click_closes_popup_witness :
  pristine sample_page /\ Mounted sample_page true sample_open
  /\ outside sample_page [0; 0] = true
  /\ click [0; 0] sample_open
     = (set_body (mounted sample_page false) sample_open,
        map (pair AtDocument) (doc_click sample_open)).
Proof.
  assert (Hp : pristine sample_page) by (repeat split; reflexivity).
  assert (Hw : Mounted sample_page true sample_open)
    by (split; [reflexivity|exists 0; reflexivity]).
  split; [exact Hp|]. split; [exact Hw|]. split; [reflexivity|].
  exact (outside_click_closes_popup sample_page sample_open [0; 0] Hp Hw eq_refl).
Defined.

(** ** The links of the popup *)

Lemma propagate_skip (s : Site) (rest : list (Site * list Handler)) (w : World) :
  propagate ((s, []) :: rest) w = propagate rest w.
Proof. simpl. destruct (propagate rest w). reflexivity. Qed.

Lemma propagate_one (s : Site) (h : Handler)
      (rest : list (Site * list Handler)) (w : World) :
  propagation_stopped (snd (run_handler h w)) = false ->
  propagate ((s, [h]) :: rest) w
  = (fst (propagate rest (fst (run_handler h w))),
     (s, h) :: snd (propagate rest (fst (run_handler h w)))).
Proof.
  intros H. cbn -[run_handler].
  destruct (run_handler h w) as [w1 fl]. simpl in H. rewrite H. simpl.
  destruct (propagate rest w1). reflexivity.
Qed.

Lemma propagate_doc_hide (p : Forest) (n : nat) (w : World) (b : bool) :
  pristine p -> body w = mounted p b ->
  propagate [(AtDocument, repeat h_doc_hide (S n))] w
  = (set_body (mounted p false) w,
     map (pair AtDocument) (repeat h_doc_hide (S n))).
Proof.
  intros Hp Hb. cbn [propagate].
  rewrite (run_level_hide p Hp n w b Hb), app_nil_r. reflexivity.
Qed.

Lemma click_link (p : Forest) (b : bool) (w : World) (t : Path)
      (k : nat) (h : Handler) (act : World -> World) :
  pristine p -> Mounted p b w ->
  (t = [flen p; 1; k] \/ t = [flen p; 1; k; 0]) ->
  (k = 0 /\ h = h_sync_up /\ act = run_sync_up)
  \/ (k = 1 /\ h = h_sync_down /\ act = run_sync_down) ->
  click t w
  = (act (set_body (mounted p false) w),
     (AtElement [flen p; 1; k], h) :: map (pair AtDocument) (doc_click w)).
Proof.
  intros Hp [Hb [n Hd]] Ht Hk. unfold click. rewrite Hb, Hd. unfold mounted.
  destruct Hk as [[-> [-> ->]]|[-> [-> ->]]]; destruct Ht as [->| ->];
    rewrite chain_tail; cbn -[propagate run_handler repeat];
    rewrite ?propagate_skip;
    (rewrite propagate_one
      by (rewrite (run_handler_mounted p Hp b w _ Hb); reflexivity));
    rewrite ?propagate_skip;
    match goal with
    | |- context [run_handler ?h w] =>
        rewrite (run_handler_mounted p Hp b w h Hb)
    end;
    cbn [fst];
    match goal with
    | |- context [propagate _ ?v] =>
        rewrite (propagate_doc_hide p n v false Hp eq_refl)
    end; reflexivity.
Qed.

(** A click on the "Sync Up (Push)" link, or on its icon, with the popup
    shown or not: the popup is hidden and the push prompt opens; no call is
    issued; the link handler prevents the default action and lets the event
    bubble, so every dismiss handler of the document runs after it. *)
Theorem push_link_click_opens_prompt :
  forall (p : Forest) (b : bool) (w : World) (t : Path),
    pristine p -> Mounted p b w -> on_push_link p t ->
    click t w
    = (mkWorld (mounted p false) (doc_click w) (console w)
               (dialogs w ++ [("Push changes to Master?", cb_push)])
               (inflight w) (notices w),
       (AtElement [flen p; 1; 0], h_sync_up)
         :: map (pair AtDocument) (doc_click w))
    /\ snd (run_handler h_sync_up w) = mkFlags false true.
Proof.
  intros p b w t Hp Hw Ht. split; [|reflexivity].
  rewrite (click_link p b w t 0 h_sync_up run_sync_up Hp Hw Ht); auto.
Qed.

Lemma push_link_click_opens_prompt_witness :
  pristine sample_page /\ Mounted sample_page true sample_open
  /\ on_push_link sample_page [2; 1; 0; 0]
  /\ click [2; 1; 0; 0] sample_open
     = (mkWorld (mounted sample_page false) (doc_click sample_open)
                (console sample_open)
                (dialogs sample_open ++ [("Push changes to Master?", cb_push)])
                (inflight sample_open) (notices sample_open),
        (AtElement [2; 1; 0], h_sync_up)
          :: map (pair AtDocument) (doc_click sample_open))
  /\ snd (run_handler h_sync_up sample_open) = mkFlags false true.
Proof.
  assert (Hp : pristine sample_page) by (repeat split; reflexivity).
  assert (Hw : Mounted sample_page true sample_open)
    by (split; [reflexivity|exists 0; reflexivity]).
  assert (Ht : on_push_link sample_page [2; 1; 0; 0]) by (right; reflexivity).
  split; [exact Hp|]. split; [exact Hw|]. split; [exact Ht|].
  exact (push_link_click_opens_prompt sample_page true sample_open
           [2; 1; 0; 0] Hp Hw Ht).
Defined.

(** A click on the "Sync Down (Pull)" link, or on its icon: the popup is
    hidden and the pull prompt opens; no call is issued; the default action
    is prevented and the event bubbles to the dismiss handlers of the
    document. *)
Theorem pull_link_click_opens_prompt :
  forall (p : Forest) (b : bool) (w : World) (t : Path),
    pristine p -> Mounted p b w -> on_pull_link p t ->
    click t w
    = (mkWorld (mounted p false) (doc_click w) (console w)
               (dialogs w ++ [("Pull changes from Master?", cb_pull)])
               (inflight w) (notices w),
       (AtElement [flen p; 1; 1], h_sync_down)
         :: map (pair AtDocument) (doc_click w))
    /\ snd (run_handler h_sync_down w) = mkFlags false true.
Proof.
  intros p b w t Hp Hw Ht. split; [|reflexivity].
  rewrite (click_link p b w t 1 h_sync_down run_sync_down Hp Hw Ht); auto.
Qed.

Lemma pull_link_click_opens_prompt_witness :
  pristine sample_page /\ Mounted sample_page true sample_open
  /\ on_pull_link sample_page [2; 1; 1]
  /\ click [2; 1; 1] sample_open
     = (mkWorld (mounted sample_page false) (doc_click sample_open)
                (console sample_open)
                (dialogs sample_open ++ [("Pull changes from Master?", cb_pull)])
                (inflight sample_open) (notices sample_open),
        (AtElement [2; 1; 1], h_sync_down)
          :: map (pair AtDocument) (doc_click sample_open))
  /\ snd (run_handler h_sync_down sample_open) = mkFlags false true.
Proof.
  assert (Hp : pristine sample_page) by (repeat split; reflexivity).
  assert (Hw : Mounted sample_page true sample_open)
    by (split; [reflexivity|exists 0; reflexivity]).
  assert (Ht : on_pull_link sample_page [2; 1; 1]) by (left; reflexivity).
  split; [exact Hp|]. split; [exact Hw|]. split; [exact Ht|].
  exact (pull_link_click_opens_prompt sample_page true sample_open
           [2; 1; 1] Hp Hw Ht).
Defined.

(** ** From the click to the notice *)

Lemma flow_after_prompt (v : World) (q : string) (cb : ConfirmCb) (r : Response) :
  let v1 := set_dialogs (dialogs v ++ [(q, cb)]) v in
  let v2 := answer (List.length (dialogs v)) true v1 in
  v2 = run_confirm_cb cb v
  /\ respond (List.length (inflight v)) r v2
     = mkWorld (body v) (doc_click v) (console v) (dialogs v) (inflight v)
               (if Js.truthy (exc r) then notices v else notices v ++ [message r]).
Proof.
  destruct v as [f dc co ds fl ns]. cbv zeta.
  assert (H1 : answer (List.length ds) true
                 (set_dialogs (ds ++ [(q, cb)]) (mkWorld f dc co ds fl ns))
               = run_confirm_cb cb (mkWorld f dc co ds fl ns)).
  { unfold answer, set_dialogs. cbn [dialogs body doc_click console inflight notices].
    rewrite take_nth_app, app_nil_r. reflexivity. }
  cbn [dialogs inflight body doc_click console notices]. rewrite H1.
  split; [reflexivity|].
  unfold respond.
  destruct cb; unfold run_confirm_cb, Frappe.call, set_inflight;
    cbn [dialogs inflight body doc_click console notices];
    rewrite take_nth_app, app_nil_r; cbn [callback];
    unfold run_call_cb, Frappe.msgprint;
    destruct (Js.truthy (exc r)); reflexivity.
Qed.

(** The push flow from the click on: on a page with the control mounted, a
    click on the "Sync Up (Push)" link, the user's confirmation and the
    response compose to this: after the confirmation exactly one call, the
    push call, has joined the calls in flight; after the response the page
    is as before the click but for the popup, now hidden, and for one notice
    with the response's message when the response carries no error. *)
Theorem push_flow_from_click_to_notice :
  forall (p : Forest) (b : bool) (w : World) (t : Path) (r : Response),
    pristine p -> Mounted p b w -> on_push_link p t ->
    let w1 := fst (click t w) in
    let w2 := answer (List.length (dialogs w)) true w1 in
    let w3 := respond (List.length (inflight w)) r w2 in
    dialogs w2 = dialogs w
    /\ inflight w2 = inflight w ++ [push_opts]
    /\ w3 = mkWorld (mounted p false) (doc_click w) (console w) (dialogs w)
                    (inflight w)
                    (if Js.truthy (exc r) then notices w
                     else notices w ++ [message r]).
Proof.
  intros p b w t r Hp Hw Ht. cbv zeta.
  rewrite (click_link p b w t 0 h_sync_up run_sync_up Hp Hw Ht) by auto.
  cbn [fst].
  destruct (flow_after_prompt (set_body (mounted p false) w)
              "Push changes to Master?" cb_push r) as [H2 H3].
  cbv zeta in H2, H3.
  cbn [set_body dialogs inflight body doc_click console notices] in H2, H3.
  unfold run_sync_up, Frappe.confirm.
  cbn [set_body dialogs inflight body doc_click console notices].
  rewrite H2 in *. split; [reflexivity|]. split; [reflexivity|]. exact H3.
Qed.

Lemma push_flow_from_click_to_notice_witness :
  pristine sample_page /\ Mounted sample_page true sample_open
  /\ on_push_link sample_page [2; 1; 0]
  /\ dialogs (answer (List.length (dialogs sample_open)) true
                     (fst (click [2; 1; 0] sample_open)))
     = dialogs sample_open
  /\ inflight (answer (List.length (dialogs sample_open)) true
                      (fst (click [2; 1; 0] sample_open)))
     = inflight sample_open ++ [push_opts]
  /\ respond (List.length (inflight sample_open))
             (mkResponse Js.Undefined (Js.Str "OK"))
             (answer (List.length (dialogs sample_open)) true
                     (fst (click [2; 1; 0] sample_open)))
     = mkWorld (mounted sample_page false) (doc_click sample_open)
               (console sample_open) (dialogs sample_open)
               (inflight sample_open)
               (if Js.truthy (exc (mkResponse Js.Undefined (Js.Str "OK")))
                then notices sample_open
                else notices sample_open
                       ++ [message (mkResponse Js.Undefined (Js.Str "OK"))]).
Proof.
  assert (Hp : pristine sample_page) by (repeat split; reflexivity).
  assert (Hw : Mounted sample_page true sample_open)
    by (split; [reflexivity|exists 0; reflexivity]).
  assert (Ht : on_push_link sample_page [2; 1; 0]) by (left; reflexivity).
  split; [exact Hp|]. split; [exact Hw|]. split; [exact Ht|].
  exact (push_flow_from_click_to_notice sample_page true sample_open [2; 1; 0]
           (mkResponse Js.Undefined (Js.Str "OK")) Hp Hw Ht).
Defined.

(** The pull flow from the click on: the same composition for the
    "Sync Down (Pull)" link, with the pull call. *)
Theorem pull_flow_from_click_to_notice :
  forall (p : Forest) (b : bool) (w : World) (t : Path) (r : Response),
    pristine p -> Mounted p b w -> on_pull_link p t ->
    let w1 := fst (click t w) in
    let w2 := answer (List.length (dialogs w)) true w1 in
    let w3 := respond (List.length (inflight w)) r w2 in
    dialogs w2 = dialogs w
    /\ inflight w2 = inflight w ++ [pull_opts]
    /\ w3 = mkWorld (mounted p false) (doc_click w) (console w) (dialogs w)
                    (inflight w)
                    (if Js.truthy (exc r) then notices w
                     else notices w ++ [message r]).
Proof.
  intros p b w t r Hp Hw Ht. cbv zeta.
  rewrite (click_link p b w t 1 h_sync_down run_sync_down Hp Hw Ht) by auto.
  cbn [fst].
  destruct (flow_after_prompt (set_body (mounted p false) w)
              "Pull changes from Master?" cb_pull r) as [H2 H3].
  cbv zeta in H2, H3.
  cbn [set_body dialogs inflight body doc_click console notices] in H2, H3.
  unfold run_sync_down, Frappe.confirm.
  cbn [set_body dialogs inflight body doc_click console notices].
  rewrite H2 in *. split; [reflexivity|]. split; [reflexivity|]. exact H3.
Qed.

Lemma pull_flow_from_click_to_notice_witness :
  pristine sample_page /\ Mounted sample_page true sample_open
  /\ on_pull_link sample_page [2; 1; 1; 0]
  /\ dialogs (answer (List.length (dialogs sample_open)) true
                     (fst (click [2; 1; 1; 0] sample_open)))
     = dialogs sample_open
  /\ inflight (answer (List.length (dialogs sample_open)) true
                      (fst (click [2; 1; 1; 0] sample_open)))
     = inflight sample_open ++ [pull_opts]
  /\ respond (List.length (inflight sample_open))
             (mkResponse (Js.Str "Traceback") Js.Undefined)
             (answer (List.length (dialogs sample_open)) true
                     (fst (click [2; 1; 1; 0] sample_open)))
     = mkWorld (mounted sample_page false) (doc_click sample_open)
               (console sample_open) (dialogs sample_open)
               (inflight sample_open)
               (if Js.truthy (exc (mkResponse (Js.Str "Traceback") Js.Undefined))
                then notices sample_open
                else notices sample_open
                       ++ [message (mkResponse (Js.Str "Traceback") Js.Undefined)]).
Proof.
  assert (Hp : pristine sample_page) by (repeat split; reflexivity).
  assert (Hw : Mounted sample_page true sample_open)
    by (split; [reflexivity|exists 0; reflexivity]).
  assert (Ht : on_pull_link sample_page [2; 1; 1; 0]) by (right; reflexivity).
  split; [exact Hp|]. split; [exact Hw|]. split; [exact Ht|].
  exact (pull_flow_from_click_to_notice sample_page true sample_open
           [2; 1; 1; 0] (mkResponse (Js.Str "Traceback") Js.Undefined) Hp Hw Ht).
Defined.

(** ** Overlapping calls *)

Lemma iter_confirm (q : string) (cb : ConfirmCb) (n : nat) (w : World) :
  Nat.iter n (Frappe.confirm q cb) w
  = set_dialogs (dialogs w ++ repeat (q, cb) n) w.
Proof.
  induction n as [|n IH].
  - simpl. rewrite app_nil_r. destruct w; reflexivity.
  - cbn [Nat.iter nat_rect]. change (nat_rect _ _ _ n) with (Nat.iter n (Frappe.confirm q cb) w).
    rewrite IH. unfold Frappe.confirm, set_dialogs.
    cbn [dialogs body doc_click console inflight notices].
    rewrite <- app_assoc.
    change [(q, cb)] with (repeat (q, cb) 1).
    rewrite <- repeat_app, Nat.add_1_r. reflexivity.
Qed.

Lemma iter_accept (q : string) (cb : ConfirmCb) (f : Forest) dc co ds ns (n : nat) :
  forall fl,
    Nat.iter n (answer (List.length ds) true)
             (mkWorld f dc co (ds ++ repeat (q, cb) n) fl ns)
    = Nat.iter n (run_confirm_cb cb) (mkWorld f dc co ds fl ns).
Proof.
  induction n as [|n IH]; intros fl.
  - simpl. rewrite app_nil_r. reflexivity.
  - rewrite !Nat.iter_succ_r.
    change (repeat (q, cb) (S n)) with ((q, cb) :: repeat (q, cb) n).
    unfold answer at 2. cbn [dialogs]. rewrite take_nth_app.
    destruct cb; unfold run_confirm_cb at 1 3, Frappe.call, set_inflight, set_dialogs;
      cbn [dialogs body doc_click console inflight notices]; apply IH.
Qed.

Lemma iter_call (o : CallOpts) (n : nat) (w : World) :
  Nat.iter n (Frappe.call o) w = set_inflight (inflight w ++ repeat o n) w.
Proof.
  induction n as [|n IH].
  - simpl. rewrite app_nil_r. destruct w; reflexivity.
  - cbn [Nat.iter nat_rect]. change (nat_rect _ _ _ n) with (Nat.iter n (Frappe.call o) w).
    rewrite IH. unfold Frappe.call, set_inflight.
    cbn [dialogs body doc_click console inflight notices].
    rewrite <- app_assoc.
    change [o] with (repeat o 1).
    rewrite <- repeat_app, Nat.add_1_r. reflexivity.
Qed.

(** Nothing keeps calls from overlapping: an action started [n] times
    before any prompt is answered opens [n] prompts, and confirming them all
    issues [n] calls of the same operation, all in flight together. *)
Theorem repeated_actions_issue_overlapping_calls :
  forall (n : nat) (w : World),
    Nat.iter n run_sync_up w
    = set_dialogs
        (dialogs w ++ repeat ("Push changes to Master?", cb_push) n) w
    /\ Nat.iter n (answer (List.length (dialogs w)) true)
                (Nat.iter n run_sync_up w)
       = set_inflight (inflight w ++ repeat push_opts n) w
    /\ Nat.iter n run_sync_down w
       = set_dialogs
           (dialogs w ++ repeat ("Pull changes from Master?", cb_pull) n) w
    /\ Nat.iter n (answer (List.length (dialogs w)) true)
                (Nat.iter n run_sync_down w)
       = set_inflight (inflight w ++ repeat pull_opts n) w.
Proof.
  intros n w.
  pose proof (iter_confirm "Push changes to Master?" cb_push n w) as Hu.
  pose proof (iter_confirm "Pull changes from Master?" cb_pull n w) as Hd.
  change (Frappe.confirm "Push changes to Master?" cb_push) with run_sync_up in Hu.
  change (Frappe.confirm "Pull changes from Master?" cb_pull) with run_sync_down in Hd.
  rewrite Hu, Hd. destruct w as [f dc co ds fl ns].
  unfold set_dialogs. cbn [dialogs body doc_click console inflight notices].
  rewrite !iter_accept.
  change (run_confirm_cb cb_push) with (Frappe.call push_opts).
  change (run_confirm_cb cb_pull) with (Frappe.call pull_opts).
  rewrite !iter_call. repeat split; reflexivity.
Qed.

(** ** Initialization, case by case *)

(** Initialization of a signed-in session on a pristine page, or on a page
    where the control is mounted already with the popup shown or not:
    it returns normally with the control as last child of the body, its
    popup hidden and each of its three handlers bound once; it binds one
    more dismiss handler on the document, logs its two lines, opens no
    prompt, issues no call and shows no notice. *)
Theorem initialization_result :
  forall (frappe : option Frappe.Runtime) (p : Forest) (w : World),
    signed_in frappe = true -> pristine p ->
    (body w = p \/ exists b, body w = mounted p b) ->
    ready frappe w
    = Returned
        (mkWorld (mounted p false) (doc_click w ++ [h_doc_hide])
                 (console w
                    ++ [(Log, "Sync App: Initializing...");
                        (Log, "Sync App: Floating button created")])
                 (dialogs w) (inflight w) (notices w)).
Proof.
  intros frappe p w Hf Hp Hb. rewrite (ready_signed_in frappe w Hf).
  rewrite (create_on p Hp) by exact Hb.
  cbn [console_put body doc_click console dialogs inflight notices].
  rewrite <- app_assoc. reflexivity.
Qed.

Lemma initialization_result_witness :
  signed_in admin = true /\ pristine sample_page
  /\ (body sample_open = sample_page
      \/ exists b, body sample_open = mounted sample_page b)
  /\ ready admin sample_open
     = Returned
         (mkWorld (mounted sample_page false)
                  (doc_click sample_open ++ [h_doc_hide])
                  (console sample_open
                     ++ [(Log, "Sync App: Initializing...");
                         (Log, "Sync App: Floating button created")])
                  (dialogs sample_open) (inflight sample_open)
                  (notices sample_open)).
Proof.
  assert (Hp : pristine sample_page) by (repeat split; reflexivity).
  assert (Hb : body sample_open = sample_page
               \/ exists b, body sample_open = mounted sample_page b)
    by (right; exists true; reflexivity).
  split; [reflexivity|]. split; [exact Hp|]. split; [exact Hb|].
  exact (initialization_result admin sample_page sample_open eq_refl Hp Hb).
Defined.

(** Whenever initialization does not go through (runtime or remote call
    undefined, session missing, guest user), and also when it throws, the
    document, the open prompts, the calls in flight and the notices are
    what they were. *)
Theorem initialization_without_session_keeps_page :
  forall (frappe : option Frappe.Runtime) (w : World),
    signed_in frappe = false ->
    body (world_of (ready frappe w)) = body w
    /\ doc_click (world_of (ready frappe w)) = doc_click w
    /\ dialogs (world_of (ready frappe w)) = dialogs w
    /\ inflight (world_of (ready frappe w)) = inflight w
    /\ notices (world_of (ready frappe w)) = notices w.
Proof.
  intros frappe w Hf. unfold ready.
  destruct frappe as [[cd [s|]]|]; try destruct cd; simpl in *;
    try (repeat split; reflexivity).
  destruct (Js.strict_eq_str (Frappe.user s) "Guest"); [|discriminate].
  repeat split; reflexivity.
Qed.

Lemma initialization_without_session_keeps_page_witness :
  signed_in (Some (Frappe.mkRuntime true None)) = false
  /\ body (world_of (ready (Some (Frappe.mkRuntime true None)) sample_open))
     = body sample_open
  /\ doc_click (world_of (ready (Some (Frappe.mkRuntime true None)) sample_open))
     = doc_click sample_open
  /\ dialogs (world_of (ready (Some (Frappe.mkRuntime true None)) sample_open))
     = dialogs sample_open
  /\ inflight (world_of (ready (Some (Frappe.mkRuntime true None)) sample_open))
     = inflight sample_open
  /\ notices (world_of (ready (Some (Frappe.mkRuntime true None)) sample_open))
     = notices sample_open.
Proof.
  split; [reflexivity|].
  apply (initialization_without_session_keeps_page
           (Some (Frappe.mkRuntime true None)) sample_open).
  reflexivity.
Defined.


Lemma strict_eq_str_spec (v : Js.Val) (s : string) :
  Js.strict_eq_str v s = true <-> v = Js.Str s.
Proof.
  destruct v; simpl; split; try discriminate.
  - intros H. apply String.eqb_eq in H. congruence.
  - intros H. injection H as ->. apply String.eqb_refl.
Qed.

(** The guest test is exact: with the runtime and its remote call defined,
    initialization is skipped (returns with the page untouched) exactly when
    the session user is the string 'Guest'; for any other value, a string in
    another case or a value that is no string, it goes on to create the
    control. *)
Theorem only_the_exact_guest_is_skipped :
  forall (u : Js.Val) (w : World),
    (ready (Some (Frappe.mkRuntime true (Some (Frappe.mkSession u)))) w
     = Returned w
     <-> u = Js.Str "Guest")
    /\ (ready (Some (Frappe.mkRuntime true (Some (Frappe.mkSession u)))) w
        = Returned (create_floating_button
                      (console_put Log "Sync App: Initializing..." w))
        <-> u <> Js.Str "Guest").
Proof.
  intros u w.
  assert (Hne : Returned (create_floating_button
                            (console_put Log "Sync App: Initializing..." w))
                <> Returned w).
  { intros H. injection H as H. apply (f_equal console) in H.
    cbn in H. apply (f_equal (@List.length _)) in H.
    rewrite !length_app in H. simpl in H. lia. }
  unfold ready. simpl.
  destruct (Js.strict_eq_str u "Guest") eqn:E.
  - apply strict_eq_str_spec in E. subst u. split; split; intros H.
    + reflexivity.
    + reflexivity.
    + exfalso. apply Hne. symmetry. exact H.
    + exfalso. apply H. reflexivity.
  - assert (Hu : u <> Js.Str "Guest").
    { intros ->. simpl in E. discriminate. }
    split; split; intros H.
    + exfalso. apply Hne. exact H.
    + contradiction.
    + exact Hu.
    + reflexivity.
Qed.

(** ** Clicks inside the control and with the popup closed *)

Lemma click_panel (p : Forest) (b : bool) (w : World) (t : Path) :
  pristine p -> Mounted p b w -> on_panel p t ->
  click t w
  = (set_body (mounted p false) w, map (pair AtDocument) (doc_click w)).
Proof.
  intros Hp [Hb [n Hd]] Ht. unfold click. rewrite Hb, Hd.
  unfold mounted.
  destruct Ht as [->| ->]; rewrite chain_tail; cbn -[propagate repeat];
    rewrite ?propagate_skip;
    rewrite (propagate_doc_hide p n w b Hp Hb); reflexivity.
Qed.

(** The dismiss handler of the document does not look at where the click
    was: a click on the root of the control or on the popup panel itself,
    beside the button and the links, bubbles to the document and hides the
    popup like a click outside; no handler of the control runs. *)
Theorem panel_click_closes_popup :
  forall (p : Forest) (b : bool) (w : World) (t : Path),
    pristine p -> Mounted p b w -> on_panel p t ->
    click t w
    = (set_body (mounted p false) w, map (pair AtDocument) (doc_click w)).
Proof. intros p b w t. apply click_panel. Qed.

Lemma panel_click_closes_popup_witness :
  pristine sample_page /\ Mounted sample_page true sample_open
  /\ on_panel sample_page [2; 1]
  /\ click [2; 1] sample_open
     = (set_body (mounted sample_page false) sample_open,
        map (pair AtDocument) (doc_click sample_open)).
Proof.
  assert (Hp : pristine sample_page) by (repeat split; reflexivity).
  assert (Hw : Mounted sample_page true sample_open)
    by (split; [reflexivity|exists 0; reflexivity]).
  assert (Ht : on_panel sample_page [2; 1]) by (right; reflexivity).
  split; [exact Hp|]. split; [exact Hw|]. split; [exact Ht|].
  exact (panel_click_closes_popup sample_page true sample_open [2; 1] Hp Hw Ht).
Defined.

(** With the popup closed, a click outside the control or on the root of
    the control changes nothing at all: the dismiss handlers run and leave
    the popup hidden; only the button opens it. *)
Theorem click_elsewhere_when_closed_changes_nothing :
  forall (p : Forest) (w : World) (t : Path),
    pristine p -> Mounted p false w ->
    outside p t = true \/ on_panel p t ->
    fst (click t w) = w.
Proof.
  intros p w t Hp Hw Ht.
  assert (H : click t w
              = (set_body (mounted p false) w,
                 map (pair AtDocument) (doc_click w))).
  { destruct Ht as [Ht|Ht].
    - unfold outside in Ht.
      destruct (chain [] t p) as [c|] eqn:E; [|discriminate].
      exact (click_outside p Hp false w t c Hw E).
    - exact (click_panel p false w t Hp Hw Ht). }
  rewrite H. cbn [fst]. destruct Hw as [Hb _]. rewrite <- Hb.
  unfold set_body. apply world_eta.
Qed.

Lemma click_elsewhere_when_closed_changes_nothing_witness :
  pristine sample_page /\ Mounted sample_page false sample_closed
  /\ (outside sample_page [1] = true \/ on_panel sample_page [1])
  /\ fst (click [1] sample_closed) = sample_closed.
Proof.
  assert (Hp : pristine sample_page) by (repeat split; reflexivity).
  assert (Hw : Mounted sample_page false sample_closed)
    by (split; [reflexivity|exists 0; reflexivity]).
  assert (Ht : outside sample_page [1] = true \/ on_panel sample_page [1])
    by (left; reflexivity).
  split; [exact Hp|]. split; [exact Hw|]. split; [exact Ht|].
  exact (click_elsewhere_when_closed_changes_nothing sample_page sample_closed
           [1] Hp Hw Ht).
Defined.

(** ** What every event preserves *)

Lemma count_id_mounted (p : Forest) (b : bool) :
  pristine p -> count_id "sync-floating-btn" (mounted p b) = 1.
Proof.
  intros [H _]. unfold mounted. rewrite count_id_fapp, H. reflexivity.
Qed.

(** After initialization of a signed-in session on a pristine page, whatever
    events follow (clicks anywhere, answers to prompts, responses, further
    initializations), the control stays mounted as the last child of the
    body, once, with its handlers as bound; the document carries dismiss
    handlers only, at least one. *)
Theorem control_persists :
  forall (frappe : option Frappe.Runtime) (p : Forest) (w : World)
         (es : list Event),
    signed_in frappe = true -> pristine p ->
    body w = p -> doc_click w = [] ->
    exists b n,
      body (run frappe (EvReady :: es) w) = mounted p b
      /\ doc_click (run frappe (EvReady :: es) w) = repeat h_doc_hide (S n)
      /\ count_id "sync-floating-btn" (body (run frappe (EvReady :: es) w)) = 1.
Proof.
  intros frappe p w es Hf Hp Hb Hd.
  destruct (reachable_mounted p Hp frappe w es Hf Hb Hd) as [b [Hm [n Hn]]].
  exists b, n. split; [exact Hm|]. split; [exact Hn|].
  rewrite Hm. apply count_id_mounted, Hp.
Qed.

Lemma control_persists_witness :
  signed_in admin = true /\ pristine sample_page
  /\ body (empty_world sample_page) = sample_page
  /\ doc_click (empty_world sample_page) = []
  /\ exists b n,
       body (run admin
               (EvReady :: [EvClick [2; 0]; EvClick [2; 1; 1]; EvReady;
                            EvAnswer 0 true; EvClick [0]])
               (empty_world sample_page)) = mounted sample_page b
       /\ doc_click (run admin
                       (EvReady :: [EvClick [2; 0]; EvClick [2; 1; 1]; EvReady;
                                    EvAnswer 0 true; EvClick [0]])
                       (empty_world sample_page)) = repeat h_doc_hide (S n)
       /\ count_id "sync-floating-btn"
                   (body (run admin
                            (EvReady :: [EvClick [2; 0]; EvClick [2; 1; 1];
                                         EvReady; EvAnswer 0 true; EvClick [0]])
                            (empty_world sample_page))) = 1.
Proof.
  assert (Hp : pristine sample_page) by (repeat split; reflexivity).
  split; [reflexivity|]. split; [exact Hp|]. split; [reflexivity|].
  split; [reflexivity|].
  exact (control_persists admin sample_page (empty_world sample_page)
           [EvClick [2; 0]; EvClick [2; 1; 1]; EvReady; EvAnswer 0 true;
            EvClick [0]] eq_refl Hp eq_refl eq_refl).
Defined.

